(** * Checkout outcome probability analysis

    A shallow embedding of [checkout-analytics.py] and the properties of its
    probabilistic outcome model.

    Conventions of the embedding.
    - Python [int]s are [Z].  The raw weights of [create_weights] are Python
      integers up to the final true division, and are kept as [Z] here.
    - Python [float]s are values of a type [F] that comes with the four
      operations the program applies to them (class [Arith]): a float literal,
      true division of two integers, [+] and [*].  Two instances are given:
      [exact] reads every operation in exact rational arithmetic (the reading
      under which the distribution laws are stated), and [binary64] runs the
      same definitions on IEEE 754 doubles, as CPython does.
    - The [amount] argument only ever meets the three threshold comparisons;
      it is a rational ([Q]), which covers every Python integer and every
      finite float.
    - A [dict] with string keys is a [gmap string _].  Subscripting a missing
      key raises [KeyError], a division by zero raises [ZeroDivisionError]:
      every function returns in the error monad [result]. *)

From Stdlib Require Import ZArith QArith Qabs Qpower Lqa Lia.
From Stdlib Require Import Floats.
From stdpp Require Import gmap strings.

(** ** Exceptions and the error monad *)

Inductive exn : Type :=
  | ZeroDivisionError
  | KeyError (key : string).

Inductive result (A : Type) : Type :=
  | Ok (a : A)
  | Raise (e : exn).

Arguments Ok {A} a.
Arguments Raise {A} e.

#[global] Instance result_ret : MRet result := fun A a => Ok a.

#[global] Instance result_bind : MBind result := fun A B k c =>
  match c with
  | Ok a => k a
  | Raise e => Raise e
  end.

(** [raises c] : the call [c] ends in an exception. *)
Definition raises {A} (c : result A) : Prop := exists e, c = Raise e.

(** ** Arithmetic on floats *)

Class Arith (F : Type) : Type := {
  lit : Q -> F;            (* a float literal, given by its decimal value *)
  truediv : Z -> Z -> F;   (* [a / b] on two ints, [b] not zero *)
  add : F -> F -> F;
  mul : F -> F -> F
}.

Arguments lit {F _} q%_Q.

Declare Scope arith_scope.
Delimit Scope arith_scope with A.
Infix "+" := add : arith_scope.
Infix "*" := mul : arith_scope.

(** Exact rational arithmetic. *)
Definition exact : Arith Q := {|
  lit q := q;
  truediv a b := (inject_Z a / inject_Z b)%Q;
  add := Qplus;
  mul := Qmult
|}.

(** An integer as a double; exact for magnitudes below [2^53]. *)
Definition float_of_Z (z : Z) : float :=
  match z with
  | Z0 => PrimFloat.zero
  | Zpos _ => PrimFloat.of_uint63 (Uint63.of_Z z)
  | Zneg p => PrimFloat.opp (PrimFloat.of_uint63 (Uint63.of_Z (Zpos p)))
  end.

(** IEEE 754 binary64, round to nearest even.  The quotient of two integers
    below [2^53] is correctly rounded, which is also how a decimal literal with
    such a numerator and denominator is read. *)
Definition binary64 : Arith float := {|
  lit q := PrimFloat.div (float_of_Z (Qnum q)) (float_of_Z (Zpos (Qden q)));
  truediv a b := PrimFloat.div (float_of_Z a) (float_of_Z b);
  add := PrimFloat.add;
  mul := PrimFloat.mul
|}.

(** ** Dictionaries *)

(** [d[k]] *)
Definition getitem {V} (d : gmap string V) (k : string) : result V :=
  match d !! k with
  | Some v => Ok v
  | None => Raise (KeyError k)
  end.

(** ** SDK raw weights: [checkout.create()] *)

(** The four local variables of [create_weights]. *)
Record weights4 : Type := {
  immediate : Z;
  deferred : Z;
  retry : Z;
  fraud : Z
}.

(** [amount > t] for an integer threshold [t]. *)
Definition gt (amount : Q) (t : Z) : bool := negb (Qle_bool amount (inject_Z t)).

Section CreateWeights.
Local Open Scope Z_scope.

(** Lines 17-20: the base values. *)
Definition base_weights (s : Z) : weights4 := {|
  immediate := 65 - s * 10;
  deferred := 20 + s * 5;
  retry := 10 + s * 5;
  fraud := 0 + s * 15
|}.

(** Lines 22-24. *)
Definition tier_1000 (amount : Q) (s : Z) (w : weights4) : weights4 :=
  if gt amount 1000 then
    {| immediate := immediate w;
       deferred := deferred w + (s * 5 + 10);
       retry := retry w + (s * 5 + 10);
       fraud := fraud w |}
  else w.

(** Lines 26-29. *)
Definition tier_5000 (amount : Q) (s : Z) (w : weights4) : weights4 :=
  if gt amount 5000 then
    {| immediate := immediate w - (s * 5 + 15);
       deferred := deferred w;
       retry := retry w + (s * 5 + 30);
       fraud := fraud w + s * 10 |}
  else w.

(** Lines 31-32. *)
Definition tier_10000 (amount : Q) (s : Z) (w : weights4) : weights4 :=
  if gt amount 10000 then
    {| immediate := immediate w;
       deferred := deferred w;
       retry := retry w;
       fraud := fraud w + s * 30 |}
  else w.

(** The values of the four variables when line 34 is reached. *)
Definition raw_weights (amount : Q) (s : Z) : weights4 :=
  tier_10000 amount s (tier_5000 amount s (tier_1000 amount s (base_weights s))).

(** Lines 34-37. *)
Definition clamp (w : weights4) : weights4 := {|
  immediate := Z.max 0 (immediate w);
  deferred := Z.max 0 (deferred w);
  retry := Z.max 0 (retry w);
  fraud := Z.max 0 (fraud w)
|}.

Definition clamped_weights (amount : Q) (s : Z) : weights4 :=
  clamp (raw_weights amount s).

(** Line 39. *)
Definition total (w : weights4) : Z :=
  immediate w + deferred w + retry w + fraud w.

(** Lines 41-46; the first division raises when [total] is zero. *)
Definition normalize `{Arith F} (w : weights4) : result (gmap string F) :=
  let total := total w in
  if total =? 0 then Raise ZeroDivisionError
  else Ok {[ "immediate" := truediv (immediate w) total;
             "deferred" := truediv (deferred w) total;
             "retry" := truediv (retry w) total;
             "fraud" := truediv (fraud w) total ]}.

Definition create_weights `{Arith F} (amount : Q) (same_records : Z)
  : result (gmap string F) :=
  let s := same_records in
  normalize (clamped_weights amount s).
End CreateWeights.

(** ** SDK raw weights: [checkout.confirm()], and deferred resolution *)

Section Model.
Context `{Arith F}.
Local Open Scope arith_scope.

Definition CONFIRM_WEIGHTS : gmap string F :=
  {[ "immediate" := lit 0.35;
     "deferred" := lit 0.30;
     "retry" := lit 0.30;
     "fraud" := lit 0.05 ]}.

Definition DEFERRED_SUCCESS : F := lit 0.80.
Definition DEFERRED_RETRY : F := lit 0.20 * lit 0.95.
Definition DEFERRED_FRAUD : F := lit 0.20 * lit 0.05.

(** ** Effective single-attempt probabilities *)

(** The subscripts are evaluated left to right, top to bottom, as the
    dictionary display does. *)
Definition effective_attempt (weights : gmap string F)
  : result (gmap string F) :=
  i ← getitem weights "immediate";
  d1 ← getitem weights "deferred";
  r ← getitem weights "retry";
  d2 ← getitem weights "deferred";
  f ← getitem weights "fraud";
  d3 ← getitem weights "deferred";
  mret {[ "success" := i + d1 * DEFERRED_SUCCESS;
          "retry" := r + d2 * DEFERRED_RETRY;
          "fraud" := f + d3 * DEFERRED_FRAUD ]}.

(** ** Multi-attempt outcome *)

(** The three accumulators of the retry loops. *)
Record acc : Type := {
  p_success : F;
  p_fraud : F;
  p_still_retrying : F
}.

(** Lines 96-98 and 120-122: [0.0], [0.0] and [1.0]. *)
Definition acc_init : acc := {|
  p_success := lit 0;
  p_fraud := lit 0;
  p_still_retrying := lit 1
|}.

(** Lines 104-106 and 125-127: the three updates, for the effective
    distribution [eff] of the attempt. *)
Definition accumulate (eff : gmap string F) (st : acc) : result acc :=
  es ← getitem eff "success";
  let p_success := p_success st + p_still_retrying st * es in
  ef ← getitem eff "fraud";
  let p_fraud := p_fraud st + p_still_retrying st * ef in
  er ← getitem eff "retry";
  let p_still_retrying := p_still_retrying st * er in
  mret {| p_success := p_success;
          p_fraud := p_fraud;
          p_still_retrying := p_still_retrying |}.

(** Lines 109-113 and 129-133. *)
Definition outcome (st : acc) : gmap string F :=
  {[ "success" := p_success st;
     "fraud" := p_fraud st;
     "retry_exhausted" := p_still_retrying st ]}.

(** [range(n)]: empty when [n <= 0]. *)
Definition range (n : Z) : list Z := Z.of_nat <$> seq 0 (Z.to_nat n).

(** [for x in xs: st = body(st, x)], stopping at the first exception. *)
Fixpoint for_each {S A} (body : S -> A -> result S) (xs : list A) (st : S)
  : result S :=
  match xs with
  | [] => mret st
  | x :: xs' => st' ← body st x; for_each body xs' st'
  end.

(** The body of the loop of [final_outcome_create], lines 101-106. *)
Definition create_body (amount : Q) (st : acc) (attempt : Z) : result acc :=
  w ← create_weights amount attempt;
  eff ← effective_attempt w;
  accumulate eff st.

Definition final_outcome_create (amount : Q) (max_retries : Z)
  : result (gmap string F) :=
  st ← for_each (create_body amount) (range max_retries) acc_init;
  mret (outcome st).

(** The body of the loop of [final_outcome_confirm], lines 125-127. *)
Definition confirm_body (eff : gmap string F) (st : acc) (_ : Z) : result acc :=
  accumulate eff st.

Definition final_outcome_confirm (max_retries : Z) : result (gmap string F) :=
  eff ← effective_attempt CONFIRM_WEIGHTS;
  st ← for_each (confirm_body eff) (range max_retries) acc_init;
  mret (outcome st).

(** The default value of [max_retries] in both signatures. *)
Definition default_max_retries : Z := 3.

(** ** End to end: create must succeed, then confirm must succeed *)

Definition end_to_end (amount : Q) : result (gmap string F) :=
  c ← final_outcome_create amount default_max_retries;
  k ← final_outcome_confirm default_max_retries;
  c_success ← getitem c "success";
  k_success ← getitem k "success";
  let e2e_success := c_success * k_success in
  e2e_create_fraud ← getitem c "fraud";
  c_success ← getitem c "success";
  k_fraud ← getitem k "fraud";
  let e2e_confirm_fraud := c_success * k_fraud in
  e2e_create_exhaust ← getitem c "retry_exhausted";
  c_success ← getitem c "success";
  k_exhausted ← getitem k "retry_exhausted";
  let e2e_confirm_exhaust := c_success * k_exhausted in
  mret {[ "success" := e2e_success;
          "create_fraud" := e2e_create_fraud;
          "confirm_fraud" := e2e_confirm_fraud;
          "create_retry_exhaust" := e2e_create_exhaust;
          "confirm_retry_exhaust" := e2e_confirm_exhaust ]}.
End Model.

(** ** Vocabulary of the specification *)

(** Follows the spec's words (section 4.4, "Retry Aggregator"): attempt [i]
    runs for [i] from [0] to [max_attempts - 1]; it obtains the raw weights of
    attempt [i], combines them into the effective distribution of the attempt
    and accumulates.  [aggregate weight_fn n] is the state of the accumulators
    after the first [n] attempts. *)
Fixpoint aggregate `{Arith F} (phase_weight_fn : Z -> result (gmap string F))
    (n : nat) : result (acc (F:=F)) :=
  match n with
  | O => Ok acc_init
  | S i =>
      st ← aggregate phase_weight_fn i;
      w ← phase_weight_fn (Z.of_nat i);
      eff ← effective_attempt w;
      accumulate eff st
  end.

(** The probability mass held by the accumulators, in exact arithmetic. *)
Definition mass (st : acc (F:=Q)) : Q :=
  (p_success st + p_fraud st + p_still_retrying st)%Q.

(** The tolerance the spec asks of sums of probabilities: [1e-9]. *)
Definition tolerance : Q := 1 # 1000000000.

(** [x] is 1.0 within the tolerance. *)
Definition is_one (x : Q) : Prop := (Qabs (x - 1) <= tolerance)%Q.

(** [x] is the decimal [y] once rounded to four places. *)
Definition rounds_to (x y : Q) : Prop := (Qabs (x - y) <= 5 # 100000)%Q.

(** [PRICE_POINTS], line 171: the amounts the report tables are printed for. *)
Definition PRICE_POINTS : list Q :=
  [100; 500; 2000; 5000; 7500; 10000; 15000]%Q.

(** On doubles: the call returned, and the values under [keys], added from
    left to right, are 1.0 within the tolerance. *)
Definition sums_to_one_binary64 (keys : list string)
    (r : result (gmap string float)) : bool :=
  match r with
  | Raise _ => false
  | Ok d =>
      match mapM (fun k => d !! k) keys with
      | Some vs =>
          PrimFloat.leb
            (PrimFloat.abs
               (PrimFloat.sub (foldl PrimFloat.add PrimFloat.zero vs)
                  PrimFloat.one))
            (@lit float binary64 tolerance)
      | None => false
      end
  end.

(** The amounts [a] and [a'] fall on the same side of the threshold [t]. *)
Definition same_side (t : Z) (a a' : Q) : Prop :=
  (inject_Z t < a)%Q <-> (inject_Z t < a')%Q.

(** The effective distribution of attempt [i] of the create phase, as the loop
    body computes it on lines 101-102. *)
Definition attempt_effective `{Arith F} (amount : Q) (i : Z)
  : result (gmap string F) :=
  w ← create_weights amount i; effective_attempt w.

(** The accumulators hold a distribution with mass still in retry: no
    negative value, a positive [p_still_retrying], total mass 1. *)
Definition acc_inv (st : acc (F:=Q)) : Prop :=
  (0 <= p_success st /\ 0 <= p_fraud st /\ 0 < p_still_retrying st
   /\ mass st == 1)%Q.

(** An amount at the top of the tier of [amount], 15000 standing for the
    open tier above 10000. *)
Definition tier_amount (amount : Q) : Q :=
  if gt amount 10000 then 15000%Q
  else if gt amount 5000 then 10000%Q
  else if gt amount 1000 then 5000%Q
  else 1000%Q.

(** The success value of [end_to_end(amount)]. *)
Definition end_to_end_success `{Arith F} (amount : Q) : result F :=
  e ← end_to_end amount; getitem e "success".

(** * Properties *)

(** ** Facts that hold whatever the arithmetic *)

Section Structure.
Context `{Arith F}.
Implicit Types (d w : gmap string F).

Lemma getitem_Some d k v : d !! k = Some v -> getitem d k = Ok v.
Proof. intros Hk. unfold getitem. by rewrite Hk. Qed.

Lemma gt_spec amount t : gt amount t = true <-> (inject_Z t < amount)%Q.
Proof.
  unfold gt. rewrite negb_true_iff, <- not_true_iff_false, Qle_bool_iff.
  split; [apply Qnot_le_lt | apply Qlt_not_le].
Qed.

Lemma gt_same_side t a a' : same_side t a a' -> gt a t = gt a' t.
Proof.
  intros Hs. apply eq_true_iff_eq. by rewrite !gt_spec.
Qed.

Lemma raw_weights_same_side a a' s :
  same_side 1000 a a' -> same_side 5000 a a' -> same_side 10000 a a' ->
  raw_weights a s = raw_weights a' s.
Proof.
  intros H1 H5 H10. unfold raw_weights, tier_10000, tier_5000, tier_1000.
  by rewrite (gt_same_side _ _ _ H1), (gt_same_side _ _ _ H5),
    (gt_same_side _ _ _ H10).
Qed.

(** The clamped values are never negative. *)
Lemma clamp_nonneg (v : weights4) :
  (0 <= immediate (clamp v) /\ 0 <= deferred (clamp v)
   /\ 0 <= retry (clamp v) /\ 0 <= fraud (clamp v))%Z.
Proof. unfold clamp; simpl. lia. Qed.

(** From attempt 0 on, the deferred weight stays at 20 or more. *)
Lemma deferred_at_least_20 amount s :
  (0 <= s)%Z -> (20 <= deferred (clamped_weights amount s))%Z.
Proof.
  intros Hs. unfold clamped_weights, raw_weights, tier_10000, tier_5000, tier_1000.
  destruct (gt amount 10000), (gt amount 5000), (gt amount 1000); simpl; lia.
Qed.

(** The divisor of the normalization is positive, for every attempt index:
    a negative index makes [immediate] positive, any other makes [deferred]
    positive. *)
Lemma total_positive amount s : (0 < total (clamped_weights amount s))%Z.
Proof.
  unfold total, clamped_weights, raw_weights, tier_10000, tier_5000, tier_1000.
  destruct (gt amount 10000), (gt amount 5000), (gt amount 1000); simpl; lia.
Qed.

Lemma normalize_Ok (v : weights4) :
  total v <> 0%Z ->
  normalize v =
    Ok {[ "immediate" := truediv (immediate v) (total v);
          "deferred" := truediv (deferred v) (total v);
          "retry" := truediv (retry v) (total v);
          "fraud" := truediv (fraud v) (total v) ]}.
Proof.
  intros Hv. unfold normalize. by destruct (Z.eqb_spec (total v) 0).
Qed.

Lemma create_weights_Ok amount s :
  let v := clamped_weights amount s in
  create_weights amount s =
    Ok {[ "immediate" := truediv (immediate v) (total v);
          "deferred" := truediv (deferred v) (total v);
          "retry" := truediv (retry v) (total v);
          "fraud" := truediv (fraud v) (total v) ]}.
Proof.
  intros v. unfold create_weights. apply normalize_Ok.
  pose proof (total_positive amount s). subst v. lia.
Qed.

Lemma effective_attempt_Ok w (i d r f : F) :
  w !! "immediate" = Some i -> w !! "deferred" = Some d ->
  w !! "retry" = Some r -> w !! "fraud" = Some f ->
  effective_attempt w =
    Ok {[ "success" := (i + d * DEFERRED_SUCCESS)%A;
          "retry" := (r + d * DEFERRED_RETRY)%A;
          "fraud" := (f + d * DEFERRED_FRAUD)%A ]}.
Proof.
  intros Hi Hd Hr Hf. unfold effective_attempt.
  by rewrite (getitem_Some _ _ _ Hi), (getitem_Some _ _ _ Hd),
    (getitem_Some _ _ _ Hr), (getitem_Some _ _ _ Hf).
Qed.

Lemma accumulate_Ok (eff : gmap string F) (es er ef : F) (st : acc) :
  eff !! "success" = Some es -> eff !! "retry" = Some er ->
  eff !! "fraud" = Some ef ->
  accumulate eff st =
    Ok {| p_success := (p_success st + p_still_retrying st * es)%A;
          p_fraud := (p_fraud st + p_still_retrying st * ef)%A;
          p_still_retrying := (p_still_retrying st * er)%A |}.
Proof.
  intros Hs Hr Hf. unfold accumulate.
  by rewrite (getitem_Some _ _ _ Hs), (getitem_Some _ _ _ Hr),
    (getitem_Some _ _ _ Hf).
Qed.

(** One attempt of the create loop never raises; its effect on the
    accumulators, in terms of the normalized weights of the attempt. *)
Lemma create_body_Ok amount (st : acc) s :
  let v := clamped_weights amount s in
  let i := truediv (immediate v) (total v) in
  let d := truediv (deferred v) (total v) in
  let r := truediv (retry v) (total v) in
  let f := truediv (fraud v) (total v) in
  create_body amount st s =
    Ok {| p_success :=
            (p_success st + p_still_retrying st * (i + d * DEFERRED_SUCCESS))%A;
          p_fraud :=
            (p_fraud st + p_still_retrying st * (f + d * DEFERRED_FRAUD))%A;
          p_still_retrying :=
            (p_still_retrying st * (r + d * DEFERRED_RETRY))%A |}.
Proof.
  intros v i d r f. unfold create_body.
  rewrite create_weights_Ok. fold v i d r f.
  change (Ok ?m ≫= ?k) with (k m). cbv beta.
  rewrite (effective_attempt_Ok _ i d r f) by by simplify_map_eq.
  change (Ok ?m ≫= ?k) with (k m). cbv beta.
  by apply accumulate_Ok; simplify_map_eq.
Qed.

Lemma effective_attempt_CONFIRM_WEIGHTS :
  effective_attempt CONFIRM_WEIGHTS =
    Ok {[ "success" := (lit 0.35 + lit 0.30 * DEFERRED_SUCCESS)%A;
          "retry" := (lit 0.30 + lit 0.30 * DEFERRED_RETRY)%A;
          "fraud" := (lit 0.05 + lit 0.30 * DEFERRED_FRAUD)%A ]}.
Proof. by apply effective_attempt_Ok; unfold CONFIRM_WEIGHTS; simplify_map_eq. Qed.

(** A loop whose body keeps an invariant and never raises runs to its end,
    and the invariant holds there. *)
Lemma for_each_invariant {S A} (P : S -> Prop) (R : A -> Prop)
    (body : S -> A -> result S) (xs : list A) :
  (forall st x, P st -> R x -> exists st', body st x = Ok st' /\ P st') ->
  Forall R xs ->
  forall st, P st -> exists st', for_each body xs st = Ok st' /\ P st'.
Proof.
  intros Hbody Hxs. induction Hxs as [|x xs Hx _ IH]; intros st Hst; simpl.
  - by exists st.
  - destruct (Hbody st x Hst Hx) as (st1 & -> & Hst1). by apply IH.
Qed.

Lemma for_each_snoc {S A} (body : S -> A -> result S) xs x st :
  for_each body (xs ++ [x]) st = (st' ← for_each body xs st; body st' x).
Proof.
  revert st. induction xs as [|y xs IH]; intros st; simpl.
  - by destruct (body st x).
  - destruct (body st y) as [st1|e]; simpl; [apply IH | done].
Qed.

(** [range(n)] is the list [0, 1, ..., n - 1]. *)
Lemma range_length n : length (range n) = Z.to_nat n.
Proof. unfold range. by rewrite length_fmap, length_seq. Qed.

Lemma range_lookup n (i : nat) :
  (i < Z.to_nat n)%nat -> range n !! i = Some (Z.of_nat i).
Proof.
  intros Hi. unfold range. rewrite list_lookup_fmap.
  by rewrite lookup_seq_lt.
Qed.

Lemma range_succ (n : nat) :
  range (Z.of_nat (S n)) = range (Z.of_nat n) ++ [Z.of_nat n].
Proof.
  unfold range. rewrite !Nat2Z.id, seq_S, fmap_app. done.
Qed.

Lemma range_nonneg n : Forall (fun i => (0 <= i)%Z) (range n).
Proof.
  unfold range. apply Forall_fmap, Forall_forall. intros i _. simpl. lia.
Qed.

(** The create loop is the aggregation of the spec: after [n] rounds it has
    made the attempts [0], ..., [n - 1], in this order. *)
Lemma create_loop_aggregate amount (n : nat) :
  for_each (create_body amount) (range (Z.of_nat n)) acc_init =
  aggregate (create_weights amount) n.
Proof.
  induction n as [|n IH]; [done|].
  rewrite range_succ, for_each_snoc, IH. done.
Qed.

Lemma confirm_loop_aggregate (n : nat) :
  (eff ← effective_attempt CONFIRM_WEIGHTS;
   for_each (confirm_body eff) (range (Z.of_nat n)) acc_init) =
  aggregate (fun _ => Ok CONFIRM_WEIGHTS) n.
Proof.
  rewrite effective_attempt_CONFIRM_WEIGHTS.
  change (Ok ?m ≫= ?k) with (k m). cbv beta.
  induction n as [|n IH]; [done|].
  rewrite range_succ, for_each_snoc, IH. simpl.
  destruct (aggregate _ n) as [st|e]; simpl; [|done].
  by rewrite effective_attempt_CONFIRM_WEIGHTS.
Qed.
End Structure.

(** ** Termination without exception, whatever the arithmetic *)

Section NoException.
Context `{Arith F}.

Lemma for_each_ext {S A} (body body' : S -> A -> result S) xs st :
  (forall st x, body st x = body' st x) ->
  for_each body xs st = for_each body' xs st.
Proof.
  intros Hb. revert st. induction xs as [|x xs IH]; intros st; simpl; [done|].
  rewrite Hb. destruct (body' st x); simpl; [apply IH | done].
Qed.

Lemma create_loop_Ok amount (xs : list Z) (st : acc) :
  exists st', for_each (create_body amount) xs st = Ok st'.
Proof.
  destruct (for_each_invariant (fun _ => True) (fun _ => True)
              (create_body amount) xs) with (st := st) as (st' & Hst' & _);
    [| by apply Forall_true | done | by exists st'].
  intros st0 x _ _. rewrite create_body_Ok. eauto.
Qed.

Lemma final_outcome_create_Ok amount max_retries :
  exists st : acc,
    for_each (create_body amount) (range max_retries) acc_init = Ok st
    /\ final_outcome_create amount max_retries = Ok (outcome st).
Proof.
  destruct (create_loop_Ok amount (range max_retries) acc_init) as [st Hst].
  exists st. split; [done|]. unfold final_outcome_create. by rewrite Hst.
Qed.

Lemma confirm_loop_Ok (eff : gmap string F) (es er ef : F) (xs : list Z)
    (st : acc) :
  eff !! "success" = Some es -> eff !! "retry" = Some er ->
  eff !! "fraud" = Some ef ->
  exists st', for_each (confirm_body eff) xs st = Ok st'.
Proof.
  intros Hs Hr Hf.
  destruct (for_each_invariant (fun _ => True) (fun _ => True)
              (confirm_body eff) xs) with (st := st) as (st' & Hst' & _);
    [| by apply Forall_true | done | by exists st'].
  intros st0 x _ _. unfold confirm_body.
  rewrite (accumulate_Ok _ _ _ _ _ Hs Hr Hf). eauto.
Qed.

Lemma final_outcome_confirm_Ok max_retries :
  exists st : acc, final_outcome_confirm max_retries = Ok (outcome st).
Proof.
  unfold final_outcome_confirm. rewrite effective_attempt_CONFIRM_WEIGHTS.
  change (Ok ?m ≫= ?k) with (k m). cbv beta.
  edestruct confirm_loop_Ok as [st ->]; [by simplify_map_eq ..|].
  by exists st.
Qed.

(** The composition of the two phases, once both have returned. *)
Lemma end_to_end_Ok amount (c k : acc) :
  final_outcome_create amount default_max_retries = Ok (outcome c) ->
  final_outcome_confirm default_max_retries = Ok (outcome k) ->
  end_to_end amount =
    Ok {[ "success" := (p_success c * p_success k)%A;
          "create_fraud" := p_fraud c;
          "confirm_fraud" := (p_success c * p_fraud k)%A;
          "create_retry_exhaust" := p_still_retrying c;
          "confirm_retry_exhaust" := (p_success c * p_still_retrying k)%A ]}.
Proof.
  intros Hc Hk. unfold end_to_end. rewrite Hc, Hk.
  change (Ok ?m ≫= ?g) with (g m). cbv beta.
  unfold outcome, getitem. by simplify_map_eq.
Qed.

Lemma not_raises_Ok {A} (c : result A) (a : A) : c = Ok a -> ~ raises c.
Proof. intros -> [e He]. discriminate. Qed.

Lemma create_weights_same_side a a' s :
  same_side 1000 a a' -> same_side 5000 a a' -> same_side 10000 a a' ->
  create_weights a s = create_weights a' s.
Proof.
  intros H1 H5 H10. unfold create_weights, clamped_weights.
  by rewrite (raw_weights_same_side a a' s).
Qed.

Lemma final_outcome_create_same_side a a' m :
  same_side 1000 a a' -> same_side 5000 a a' -> same_side 10000 a a' ->
  final_outcome_create a m = final_outcome_create a' m.
Proof.
  intros H1 H5 H10. unfold final_outcome_create.
  rewrite (for_each_ext (create_body a) (create_body a')); [done|].
  intros st s. unfold create_body.
  by rewrite (create_weights_same_side a a' s).
Qed.

Lemma end_to_end_same_side a a' :
  same_side 1000 a a' -> same_side 5000 a a' -> same_side 10000 a a' ->
  end_to_end a = end_to_end a'.
Proof.
  intros H1 H5 H10. unfold end_to_end.
  by rewrite (final_outcome_create_same_side a a').
Qed.

(** A negative amount is below the three thresholds, as 0 is. *)
Lemma negative_same_side amount t :
  (amount < 0)%Q -> (0 <= t)%Z -> same_side t amount 0.
Proof.
  intros Ha Ht. unfold same_side.
  assert (Ht' : (0 <= inject_Z t)%Q) by (change 0%Q with (inject_Z 0); by rewrite <- Zle_Qle).
  split; intros Hlt; exfalso.
  - apply (Qlt_irrefl 0). eapply Qle_lt_trans; [exact Ht'|].
    eapply Qlt_trans; eauto.
  - eapply Qlt_not_le; eauto.
Qed.
End NoException.

(** ** Exact arithmetic: the distribution laws *)

Section Exact.
Local Existing Instance exact.
Local Open Scope Q_scope.

Lemma is_one_exact x : x == 1 -> is_one x.
Proof. intros Hx. unfold is_one. rewrite Hx. by vm_compute. Qed.

Lemma truediv_nonneg (a t : Z) : (0 <= a)%Z -> (0 < t)%Z -> 0 <= truediv a t.
Proof.
  intros Ha Ht. simpl. apply Qle_shift_div_l.
  - change 0 with (inject_Z 0). by rewrite <- Zlt_Qlt.
  - rewrite Qmult_0_l. change 0 with (inject_Z 0). by rewrite <- Zle_Qle.
Qed.

(** The four quotients by the total add up to 1. *)
Lemma truediv_total (v : weights4) :
  (0 < total v)%Z ->
  truediv (immediate v) (total v) + truediv (deferred v) (total v)
  + truediv (retry v) (total v) + truediv (fraud v) (total v) == 1.
Proof.
  intros Ht. simpl.
  assert (Hne : ~ inject_Z (total v) == 0).
  { change 0 with (inject_Z 0). rewrite inject_Z_injective. lia. }
  transitivity (inject_Z (total v) / inject_Z (total v)).
  - unfold total at 5. rewrite !inject_Z_plus. by field.
  - by field.
Qed.

(** The deferred resolver is a distribution. *)
Lemma deferred_resolver_total :
  DEFERRED_SUCCESS + DEFERRED_RETRY + DEFERRED_FRAUD == 1.
Proof. reflexivity. Qed.

(** The combiner moves mass, it neither creates nor loses any. *)
Lemma effective_total (i d r f : Q) :
  (i + d * DEFERRED_SUCCESS) + (r + d * DEFERRED_RETRY)
  + (f + d * DEFERRED_FRAUD) == i + d + r + f.
Proof. unfold DEFERRED_SUCCESS, DEFERRED_RETRY, DEFERRED_FRAUD. simpl. ring. Qed.

Lemma effective_nonneg (x d c : Q) : 0 <= x -> 0 <= d -> 0 <= c -> 0 <= x + d * c.
Proof.
  intros Hx Hd Hc. rewrite <- (Qplus_0_l 0).
  apply Qplus_le_compat; [done|]. by apply Qmult_le_0_compat.
Qed.

Lemma mass_init : mass acc_init == 1.
Proof. reflexivity. Qed.

(** One attempt splits the mass still in retry and keeps the whole. *)
Lemma accumulate_mass (st : acc) (es er ef : Q) :
  es + er + ef == 1 ->
  mass {| p_success := p_success st + p_still_retrying st * es;
          p_fraud := p_fraud st + p_still_retrying st * ef;
          p_still_retrying := p_still_retrying st * er |} == mass st.
Proof.
  intros He. unfold mass; simpl.
  transitivity (p_success st + p_fraud st
                + p_still_retrying st * (es + er + ef)); [ring|].
  rewrite He. ring.
Qed.

Lemma create_body_mass amount (st : acc) s :
  exists st', create_body amount st s = Ok st' /\ mass st' == mass st.
Proof.
  rewrite create_body_Ok. eexists; split; [done|].
  apply accumulate_mass.
  rewrite effective_total. apply truediv_total, total_positive.
Qed.

Lemma create_loop_mass amount (xs : list Z) (st : acc) :
  mass st == 1 ->
  exists st', for_each (create_body amount) xs st = Ok st' /\ mass st' == 1.
Proof.
  intros Hst.
  apply (for_each_invariant (fun st => mass st == 1) (fun _ => True));
    [| by apply Forall_true | done].
  intros st0 x Hst0 _.
  destruct (create_body_mass amount st0 x) as (st1 & Hb & Hm).
  exists st1. split; [done|]. by rewrite Hm.
Qed.

Lemma confirm_loop_mass (eff : gmap string Q) (es er ef : Q) (xs : list Z)
    (st : acc) :
  eff !! "success" = Some es -> eff !! "retry" = Some er ->
  eff !! "fraud" = Some ef ->
  es + er + ef == 1 -> mass st == 1 ->
  exists st', for_each (confirm_body eff) xs st = Ok st' /\ mass st' == 1.
Proof.
  intros Hs Hr Hf He Hst.
  apply (for_each_invariant (fun st => mass st == 1) (fun _ => True));
    [| by apply Forall_true | done].
  intros st0 x Hst0 _. unfold confirm_body.
  rewrite (accumulate_Ok _ _ _ _ _ Hs Hr Hf). eexists; split; [done|].
  by rewrite accumulate_mass.
Qed.

Lemma final_outcome_confirm_mass max_retries :
  exists k : acc,
    final_outcome_confirm max_retries = Ok (outcome k) /\ mass k == 1.
Proof.
  unfold final_outcome_confirm. rewrite effective_attempt_CONFIRM_WEIGHTS.
  change (Ok ?m ≫= ?g) with (g m). cbv beta.
  edestruct confirm_loop_mass as (k & -> & Hk);
    [by simplify_map_eq .. | | apply mass_init | by exists k].
  reflexivity.
Qed.

(** The five end-to-end outcomes split the whole mass. *)
Lemma end_to_end_total (c k : acc) :
  mass c == 1 -> mass k == 1 ->
  p_success c * p_success k + p_fraud c + p_success c * p_fraud k
  + p_still_retrying c + p_success c * p_still_retrying k == 1.
Proof.
  unfold mass. intros Hc Hk.
  transitivity (p_success c * (p_success k + p_fraud k + p_still_retrying k)
                + p_fraud c + p_still_retrying c); [ring|].
  by rewrite Hk, Qmult_1_r.
Qed.

(** *** The weight function *)

(** What [create_weights] returns, for every amount and attempt index. *)
Lemma create_weights_exact amount s :
  exists i d r f : Q,
    create_weights amount s =
      Ok {[ "immediate" := i; "deferred" := d; "retry" := r; "fraud" := f ]}
    /\ 0 <= i /\ 0 <= d /\ 0 <= r /\ 0 <= f
    /\ i + d + r + f == 1.
Proof.
  pose proof (total_positive amount s) as Ht.
  pose proof (clamp_nonneg (raw_weights amount s)) as (Hi & Hd & Hr & Hf).
  fold (clamped_weights amount s) in Hi, Hd, Hr, Hf.
  do 4 eexists. split; [apply create_weights_Ok|].
  split_and!; [by apply truediv_nonneg .. | by apply truediv_total].
Qed.

Lemma dom_weights (i d r f : Q) :
  dom ({[ "immediate" := i; "deferred" := d; "retry" := r; "fraud" := f ]}
       : gmap string Q)
  = {[ "immediate"; "deferred"; "retry"; "fraud" ]}.
Proof. rewrite !dom_insert_L, dom_singleton_L. set_solver. Qed.

(** C1: for every amount >= 0 and attempt index >= 0, [create_weights]
    returns a mapping with exactly the keys immediate, deferred, retry and
    fraud; its four values are non-negative and sum to 1 (exactly, in exact
    arithmetic, hence within 1e-9). *)
Theorem create_weights_distribution (amount : Q) (attempt_index : Z) :
  0 <= amount -> (0 <= attempt_index)%Z ->
  exists (w : gmap string Q) (i d r f : Q),
    create_weights amount attempt_index = Ok w
    /\ w = {[ "immediate" := i; "deferred" := d; "retry" := r; "fraud" := f ]}
    /\ dom w = {[ "immediate"; "deferred"; "retry"; "fraud" ]}
    /\ 0 <= i /\ 0 <= d /\ 0 <= r /\ 0 <= f
    /\ i + d + r + f == 1
    /\ is_one (i + d + r + f).
Proof.
  intros _ _.
  destruct (create_weights_exact amount attempt_index)
    as (i & d & r & f & Hw & Hi & Hd & Hr & Hf & Hsum).
  exists {[ "immediate" := i; "deferred" := d; "retry" := r; "fraud" := f ]},
    i, d, r, f.
  split_and!;
    [exact Hw | reflexivity | apply dom_weights | exact Hi | exact Hd
    | exact Hr | exact Hf | exact Hsum | by apply is_one_exact].
Qed.

Lemma create_weights_distribution_witness :
  exists (w : gmap string Q) (i d r f : Q),
    create_weights 7500 2 = Ok w
    /\ w = {[ "immediate" := i; "deferred" := d; "retry" := r; "fraud" := f ]}
    /\ dom w = {[ "immediate"; "deferred"; "retry"; "fraud" ]}
    /\ 0 <= i /\ 0 <= d /\ 0 <= r /\ 0 <= f
    /\ i + d + r + f == 1
    /\ is_one (i + d + r + f).
Proof.
  apply (create_weights_distribution 7500 2); [by vm_compute | lia].
Defined.

(** C9: [create_weights] is total for every amount, negative ones included,
    and every attempt index >= 0: the clamped deferred weight is at least
    20, so the divisor is positive, no division fails, and the result is a
    four-way distribution that sums to 1. *)
Theorem create_weights_total (amount : Q) (attempt_index : Z) :
  (0 <= attempt_index)%Z ->
  (20 <= deferred (clamped_weights amount attempt_index))%Z
  /\ (0 < total (clamped_weights amount attempt_index))%Z
  /\ ~ raises (create_weights amount attempt_index)
  /\ exists i d r f : Q,
       create_weights amount attempt_index =
         Ok {[ "immediate" := i; "deferred" := d; "retry" := r; "fraud" := f ]}
       /\ 0 <= i /\ 0 <= d /\ 0 <= r /\ 0 <= f
       /\ i + d + r + f == 1.
Proof.
  intros Hs.
  destruct (create_weights_exact amount attempt_index)
    as (i & d & r & f & Hw & Hrest).
  split; [by apply deferred_at_least_20|].
  split; [apply total_positive|].
  split; [by eapply not_raises_Ok|].
  by exists i, d, r, f.
Qed.

Lemma create_weights_total_witness :
  (20 <= deferred (clamped_weights (-250) 6))%Z
  /\ (0 < total (clamped_weights (-250) 6))%Z
  /\ ~ raises (create_weights (-250) 6)
  /\ exists i d r f : Q,
       create_weights (-250) 6 =
         Ok {[ "immediate" := i; "deferred" := d; "retry" := r; "fraud" := f ]}
       /\ 0 <= i /\ 0 <= d /\ 0 <= r /\ 0 <= f
       /\ i + d + r + f == 1.
Proof. apply (create_weights_total (-250) 6). lia. Defined.

(** *** The effective-attempt combiner *)

(** C2: for every weights mapping whose values immediate, deferred, retry
    and fraud are non-negative and sum to 1, [effective_attempt] returns the
    three values success, retry and fraud, and they sum to 1 exactly. *)
Theorem effective_attempt_distribution (weights : gmap string Q)
    (i d r f : Q) :
  weights !! "immediate" = Some i -> weights !! "deferred" = Some d ->
  weights !! "retry" = Some r -> weights !! "fraud" = Some f ->
  0 <= i -> 0 <= d -> 0 <= r -> 0 <= f ->
  i + d + r + f == 1 ->
  exists (eff : gmap string Q) (es er ef : Q),
    effective_attempt weights = Ok eff
    /\ eff = {[ "success" := es; "retry" := er; "fraud" := ef ]}
    /\ es = i + d * DEFERRED_SUCCESS
    /\ er = r + d * DEFERRED_RETRY
    /\ ef = f + d * DEFERRED_FRAUD
    /\ 0 <= es /\ 0 <= er /\ 0 <= ef
    /\ es + er + ef == 1.
Proof.
  intros Hi Hd Hr Hf Hi0 Hd0 Hr0 Hf0 Hsum.
  do 4 eexists.
  split_and!; [by apply (effective_attempt_Ok _ i d r f) | done ..| | | |].
  - by apply effective_nonneg.
  - by apply effective_nonneg.
  - by apply effective_nonneg.
  - simpl. by rewrite effective_total.
Qed.

Lemma effective_attempt_distribution_witness :
  exists (eff : gmap string Q) (es er ef : Q),
    effective_attempt CONFIRM_WEIGHTS = Ok eff
    /\ eff = {[ "success" := es; "retry" := er; "fraud" := ef ]}
    /\ es = 0.35 + 0.30 * DEFERRED_SUCCESS
    /\ er = 0.30 + 0.30 * DEFERRED_RETRY
    /\ ef = 0.05 + 0.30 * DEFERRED_FRAUD
    /\ 0 <= es /\ 0 <= er /\ 0 <= ef
    /\ es + er + ef == 1.
Proof.
  apply (effective_attempt_distribution CONFIRM_WEIGHTS 0.35 0.30 0.30 0.05);
    by vm_compute.
Defined.

(** *** The retry aggregator *)

(** C3: for every amount >= 0 and [max_attempts >= 1], the loop of
    [final_outcome_create] runs over the attempt indices
    [0, 1, ..., max_attempts - 1], one iteration each, passing the index as
    the same-records argument (it computes the aggregation of the spec for
    [max_attempts] attempts); the mass left in [p_still_retrying] is
    reported as retry_exhausted; and the three values returned sum to 1
    (exactly, hence within 1e-9). *)
Theorem final_outcome_create_distribution (amount : Q) (max_attempts : Z) :
  0 <= amount -> (1 <= max_attempts)%Z ->
  exists st : acc,
    length (range max_attempts) = Z.to_nat max_attempts
    /\ (forall i : nat, (i < Z.to_nat max_attempts)%nat ->
          range max_attempts !! i = Some (Z.of_nat i))
    /\ for_each (create_body amount) (range max_attempts) acc_init = Ok st
    /\ aggregate (create_weights amount) (Z.to_nat max_attempts) = Ok st
    /\ final_outcome_create amount max_attempts =
         Ok {[ "success" := p_success st;
               "fraud" := p_fraud st;
               "retry_exhausted" := p_still_retrying st ]}
    /\ p_success st + p_fraud st + p_still_retrying st == 1
    /\ is_one (p_success st + p_fraud st + p_still_retrying st).
Proof.
  intros _ Hm.
  destruct (create_loop_mass amount (range max_attempts) acc_init mass_init)
    as (st & Hloop & Hmass).
  exists st. split_and!.
  - apply range_length.
  - apply range_lookup.
  - exact Hloop.
  - rewrite <- create_loop_aggregate. by rewrite Z2Nat.id by lia.
  - unfold final_outcome_create. by rewrite Hloop.
  - exact Hmass.
  - by apply is_one_exact.
Qed.

Lemma final_outcome_create_distribution_witness :
  exists st : acc,
    length (range 3) = Z.to_nat 3
    /\ (forall i : nat, (i < Z.to_nat 3)%nat ->
          range 3 !! i = Some (Z.of_nat i))
    /\ for_each (create_body 7500) (range 3) acc_init = Ok st
    /\ aggregate (create_weights 7500) (Z.to_nat 3) = Ok st
    /\ final_outcome_create 7500 3 =
         Ok {[ "success" := p_success st;
               "fraud" := p_fraud st;
               "retry_exhausted" := p_still_retrying st ]}
    /\ p_success st + p_fraud st + p_still_retrying st == 1
    /\ is_one (p_success st + p_fraud st + p_still_retrying st).
Proof.
  apply (final_outcome_create_distribution 7500 3); [by vm_compute | lia].
Defined.

(** *** The phase composer *)

(** C4: for every amount >= 0, [end_to_end] composes
    [c = final_outcome_create(amount)] and [k = final_outcome_confirm()],
    both with 3 attempts: success is [c.success * k.success], create_fraud
    is [c.fraud], confirm_fraud is [c.success * k.fraud],
    create_retry_exhaust is [c.retry_exhausted] and confirm_retry_exhaust is
    [c.success * k.retry_exhausted]; the five values sum to 1 (exactly,
    hence within 1e-9). *)
Theorem end_to_end_composition (amount : Q) :
  0 <= amount ->
  exists c_success c_fraud c_exhausted k_success k_fraud k_exhausted : Q,
    final_outcome_create amount 3 =
      Ok {[ "success" := c_success;
            "fraud" := c_fraud;
            "retry_exhausted" := c_exhausted ]}
    /\ final_outcome_confirm 3 =
         Ok {[ "success" := k_success;
               "fraud" := k_fraud;
               "retry_exhausted" := k_exhausted ]}
    /\ end_to_end amount =
         Ok {[ "success" := c_success * k_success;
               "create_fraud" := c_fraud;
               "confirm_fraud" := c_success * k_fraud;
               "create_retry_exhaust" := c_exhausted;
               "confirm_retry_exhaust" := c_success * k_exhausted ]}
    /\ c_success * k_success + c_fraud + c_success * k_fraud
       + c_exhausted + c_success * k_exhausted == 1
    /\ is_one (c_success * k_success + c_fraud + c_success * k_fraud
               + c_exhausted + c_success * k_exhausted).
Proof.
  intros _.
  destruct (create_loop_mass amount (range 3) acc_init mass_init)
    as (c & Hloop & Hc).
  assert (Hcreate : final_outcome_create amount 3 = Ok (outcome c)).
  { unfold final_outcome_create. by rewrite Hloop. }
  destruct (final_outcome_confirm_mass 3) as (k & Hconfirm & Hk).
  exists (p_success c), (p_fraud c), (p_still_retrying c),
    (p_success k), (p_fraud k), (p_still_retrying k).
  pose proof (end_to_end_total c k Hc Hk) as Hsum.
  split_and!;
    [exact Hcreate | exact Hconfirm
    | exact (end_to_end_Ok amount c k Hcreate Hconfirm) | exact Hsum
    | by apply is_one_exact].
Qed.

Lemma end_to_end_composition_witness :
  exists c_success c_fraud c_exhausted k_success k_fraud k_exhausted : Q,
    final_outcome_create 100 3 =
      Ok {[ "success" := c_success;
            "fraud" := c_fraud;
            "retry_exhausted" := c_exhausted ]}
    /\ final_outcome_confirm 3 =
         Ok {[ "success" := k_success;
               "fraud" := k_fraud;
               "retry_exhausted" := k_exhausted ]}
    /\ end_to_end 100 =
         Ok {[ "success" := c_success * k_success;
               "create_fraud" := c_fraud;
               "confirm_fraud" := c_success * k_fraud;
               "create_retry_exhaust" := c_exhausted;
               "confirm_retry_exhaust" := c_success * k_exhausted ]}
    /\ c_success * k_success + c_fraud + c_success * k_fraud
       + c_exhausted + c_success * k_exhausted == 1
    /\ is_one (c_success * k_success + c_fraud + c_success * k_fraud
               + c_exhausted + c_success * k_exhausted).
Proof. apply (end_to_end_composition 100). by vm_compute. Defined.
End Exact.

(** ** The weights at given amounts *)

Section Scenarios.
Local Existing Instance exact.
Local Open Scope Q_scope.

(** The scenario [create_weights(7500, 0)] as the spec words it: raw fraud
    10, raw total 140, normalized fraud 0.0714.  The code adds
    [s * 10 = 0] to fraud at attempt 0. *)
Lemma scenario_7500_fraud_not_10 :
  fraud (raw_weights 7500 0) <> 10%Z
  /\ total (clamped_weights 7500 0) <> 140%Z
  /\ exists (w : gmap string Q) (v : Q),
       create_weights 7500 0 = Ok w /\ w !! "fraud" = Some v
       /\ ~ rounds_to v 0.0714.
Proof.
  split; [by vm_compute|]. split; [by vm_compute|].
  eexists _, (0 # 130). split; [apply create_weights_Ok|].
  split; [by vm_compute|]. by vm_compute.
Qed.

(** C5, amended: [create_weights(7500, 0)] computes the raw values
    immediate = 50, deferred = 30, retry = 50, fraud = 0 with raw total 130,
    and returns the normalized distribution
    {immediate: 0.3846, deferred: 0.2308, retry: 0.3846, fraud: 0}
    (to four decimal places). *)
Theorem scenario_7500 :
  raw_weights 7500 0 =
    {| immediate := 50; deferred := 30; retry := 50; fraud := 0 |}
  /\ total (clamped_weights 7500 0) = 130%Z
  /\ exists i d r f : Q,
       create_weights 7500 0 =
         Ok {[ "immediate" := i; "deferred" := d; "retry" := r; "fraud" := f ]}
       /\ i == 50 / 130 /\ d == 30 / 130 /\ r == 50 / 130 /\ f == 0
       /\ rounds_to i 0.3846 /\ rounds_to d 0.2308 /\ rounds_to r 0.3846.
Proof.
  split; [by vm_compute|]. split; [by vm_compute|].
  do 4 eexists. split; [apply create_weights_Ok|].
  split_and!; by vm_compute.
Qed.

(** At attempt 4 the clamped immediate weight of a 7500 payment is already
    0; it cannot decrease at attempt 5. *)
Lemma immediate_stalls_at_zero :
  5000 < 7500
  /\ ~ (immediate (clamped_weights 7500 (4 + 1))
        < immediate (clamped_weights 7500 4))%Z.
Proof. split; by vm_compute. Qed.

(** C8, amended: for every amount > 5000 and attempt index >= 0, one more
    attempt never increases the clamped immediate weight, which stays >= 0;
    it strictly decreases it as long as it is positive (attempts 0 to 3),
    and from attempt 4 on it is 0; the raw fraud weight strictly
    increases. *)
Theorem immediate_decreases_fraud_increases (amount : Q) (s : Z) :
  5000 < amount -> (0 <= s)%Z ->
  (0 <= immediate (clamped_weights amount (s + 1))
     <= immediate (clamped_weights amount s))%Z
  /\ ((0 < immediate (clamped_weights amount s))%Z ->
      (immediate (clamped_weights amount (s + 1))
       < immediate (clamped_weights amount s))%Z)
  /\ ((s <= 3)%Z -> (0 < immediate (clamped_weights amount s))%Z)
  /\ ((4 <= s)%Z -> immediate (clamped_weights amount s) = 0%Z)
  /\ (fraud (raw_weights amount s) < fraud (raw_weights amount (s + 1)))%Z.
Proof.
  intros Ha Hs. apply (gt_spec amount 5000) in Ha.
  unfold clamped_weights, raw_weights, tier_10000, tier_5000, tier_1000.
  rewrite Ha.
  destruct (gt amount 10000), (gt amount 1000); simpl; lia.
Qed.

Lemma immediate_decreases_fraud_increases_witness :
  (0 <= immediate (clamped_weights 7500 (2 + 1))
     <= immediate (clamped_weights 7500 2))%Z
  /\ ((0 < immediate (clamped_weights 7500 2))%Z ->
      (immediate (clamped_weights 7500 (2 + 1))
       < immediate (clamped_weights 7500 2))%Z)
  /\ ((2 <= 3)%Z -> (0 < immediate (clamped_weights 7500 2))%Z)
  /\ ((4 <= 2)%Z -> immediate (clamped_weights 7500 2) = 0%Z)
  /\ (fraud (raw_weights 7500 2) < fraud (raw_weights 7500 (2 + 1)))%Z.
Proof.
  apply (immediate_decreases_fraud_increases 7500 2); [by vm_compute | lia].
Defined.
End Scenarios.

(** ** Boundaries of the input space *)

Section Boundaries.
Context `{Arith F}.

(** C6: with [max_attempts = 0] the loops make no attempt and both
    aggregators return exactly {success: 0, fraud: 0, retry_exhausted: 1},
    for any amount; no exception (no division by zero) occurs.  This holds
    for every arithmetic, IEEE doubles included: [lit 0] and [lit 1] are the
    floats [0.0] and [1.0] the accumulators start from. *)
Theorem zero_attempts_all_exhausted (amount : Q) :
  final_outcome_create amount 0 =
    Ok {[ "success" := lit 0; "fraud" := lit 0; "retry_exhausted" := lit 1 ]}
  /\ final_outcome_confirm 0 =
    Ok {[ "success" := lit 0; "fraud" := lit 0; "retry_exhausted" := lit 1 ]}.
Proof.
  split; [done|].
  unfold final_outcome_confirm. by rewrite effective_attempt_CONFIRM_WEIGHTS.
Qed.

(** C7, amended: a negative amount is not rejected.  The three threshold
    comparisons are evaluated and are all false, so no tier applies, and
    [create_weights], [final_outcome_create] and [end_to_end] return, without
    raising, what they return for the amount 0. *)
Theorem negative_amount_evaluated (amount : Q) :
  (amount < 0)%Q ->
  (forall s : Z,
      raw_weights amount s = base_weights s
      /\ create_weights amount s = create_weights 0 s
      /\ ~ raises (create_weights amount s))
  /\ (forall max_retries : Z,
      final_outcome_create amount max_retries =
        final_outcome_create 0 max_retries
      /\ ~ raises (final_outcome_create amount max_retries))
  /\ end_to_end amount = end_to_end 0
  /\ ~ raises (end_to_end amount).
Proof.
  intros Ha.
  assert (H1 : same_side 1000 amount 0) by by apply negative_same_side.
  assert (H5 : same_side 5000 amount 0) by by apply negative_same_side.
  assert (H10 : same_side 10000 amount 0) by by apply negative_same_side.
  split_and!.
  - intros s. split_and!.
    + by rewrite (raw_weights_same_side amount 0 s).
    + by apply create_weights_same_side.
    + eapply not_raises_Ok, create_weights_Ok.
  - intros m. split; [by apply final_outcome_create_same_side|].
    destruct (final_outcome_create_Ok amount m) as (st & _ & Hst).
    by eapply not_raises_Ok.
  - by apply end_to_end_same_side.
  - destruct (final_outcome_create_Ok amount default_max_retries)
      as (c & _ & Hc).
    destruct (final_outcome_confirm_Ok default_max_retries) as (k & Hk).
    eapply not_raises_Ok. exact (end_to_end_Ok amount c k Hc Hk).
Qed.

(** C10: two amounts that fall on the same side of each of the thresholds
    1000, 5000 and 10000 get the same weights at every attempt index, hence
    the same create outcome for every number of attempts and the same
    end-to-end outcome. *)
Theorem amount_only_through_thresholds (a a' : Q) (attempt_index : Z) :
  same_side 1000 a a' -> same_side 5000 a a' -> same_side 10000 a a' ->
  create_weights a attempt_index = create_weights a' attempt_index
  /\ (forall max_retries : Z,
       final_outcome_create a max_retries =
       final_outcome_create a' max_retries)
  /\ end_to_end a = end_to_end a'.
Proof.
  intros H1 H5 H10. split_and!.
  - by apply create_weights_same_side.
  - intros m. by apply final_outcome_create_same_side.
  - by apply end_to_end_same_side.
Qed.
End Boundaries.

Section BoundaryCases.
Local Existing Instance exact.

(** The amount -1 is accepted: [create_weights(-1, 0)] returns the weights of
  a payment of at most 1000, and the two aggregations return too. *)
Lemma negative_amount_accepted :
  (-1 < 0)%Q
  /\ create_weights (-1) 0 =
     Ok {[ "immediate" := 65 # 95; "deferred" := 20 # 95;
           "retry" := 10 # 95; "fraud" := 0 # 95 ]}
  /\ ~ raises (create_weights (-1) 0)
  /\ ~ raises (final_outcome_create (-1) 3)
  /\ ~ raises (end_to_end (-1)).
Proof.
  split; [reflexivity|]. split; [by rewrite create_weights_Ok|]. split_and!.
  - eapply not_raises_Ok, create_weights_Ok.
  - destruct (final_outcome_create_Ok (-1) 3) as (st & _ & Hst).
    by eapply not_raises_Ok.
  - destruct (final_outcome_create_Ok (-1) default_max_retries)
      as (c & _ & Hc).
    destruct (final_outcome_confirm_Ok default_max_retries) as (k & Hk).
    eapply not_raises_Ok. exact (end_to_end_Ok (-1) c k Hc Hk).
Qed.

Lemma negative_amount_evaluated_witness :
  (forall s : Z,
    raw_weights (-1) s = base_weights s
    /\ create_weights (-1) s = create_weights 0 s
    /\ ~ raises (create_weights (-1) s))
  /\ (forall max_retries : Z,
    final_outcome_create (-1) max_retries =
      final_outcome_create 0 max_retries
    /\ ~ raises (final_outcome_create (-1) max_retries))
  /\ end_to_end (-1) = end_to_end 0
  /\ ~ raises (end_to_end (-1)).
Proof. apply (negative_amount_evaluated (-1)). by vm_compute. Defined.

Lemma amount_only_through_thresholds_witness :
  create_weights 2000 1 = create_weights 4999.5 1
  /\ (forall max_retries : Z,
     final_outcome_create 2000 max_retries =
     final_outcome_create 4999.5 max_retries)
  /\ end_to_end 2000 = end_to_end 4999.5.
Proof.
  apply (amount_only_through_thresholds 2000 4999.5 1);
  unfold same_side; split; by vm_compute.
Defined.
End BoundaryCases.

(** ** The same program on IEEE doubles *)

Section Binary64.
Local Existing Instance binary64.
Set Warnings "-inexact-float".

(** [create_weights(7500, 0)] as CPython prints it. *)
Example binary64_create_weights_7500 :
  (w ← create_weights 7500 0;
   mret (w !! "immediate", w !! "deferred", w !! "retry", w !! "fraud")) =
  Ok (Some 0.38461538461538464%float, Some 0.23076923076923078%float,
      Some 0.38461538461538464%float, Some 0%float).
Proof. by vm_compute. Qed.

(** [effective_attempt(CONFIRM_WEIGHTS)]. *)
Example binary64_effective_confirm :
  (e ← effective_attempt CONFIRM_WEIGHTS;
   mret (e !! "success", e !! "retry", e !! "fraud")) =
  Ok (Some 0.58999999999999997%float, Some 0.35699999999999998%float,
      Some 0.053000000000000005%float).
Proof. by vm_compute. Qed.

(** With no attempt the outcome is exactly 0.0, 0.0, 1.0. *)
Example binary64_zero_attempts :
  (c ← final_outcome_create 7500 0;
   mret (c !! "success", c !! "fraud", c !! "retry_exhausted")) =
  Ok (Some 0%float, Some 0%float, Some 1%float).
Proof. by vm_compute. Qed.

(** At every amount of the report and the attempts 0 to 3 of its tables, the
    rounded results still sum to 1 within 1e-9. *)
Example binary64_create_weights_sums :
  forallb (fun amount =>
    forallb (fun s =>
      sums_to_one_binary64 ["immediate"; "deferred"; "retry"; "fraud"]
        (create_weights amount s)) (range 4)) PRICE_POINTS = true.
Proof. by vm_compute. Qed.

Example binary64_effective_attempt_sums :
  forallb (fun amount =>
    sums_to_one_binary64 ["success"; "retry"; "fraud"]
      (create_weights amount 0 ≫= effective_attempt)) PRICE_POINTS = true.
Proof. by vm_compute. Qed.

Example binary64_final_outcome_sums :
  forallb (fun amount =>
    sums_to_one_binary64 ["success"; "fraud"; "retry_exhausted"]
      (final_outcome_create amount 3)) PRICE_POINTS
  && sums_to_one_binary64 ["success"; "fraud"; "retry_exhausted"]
       (final_outcome_confirm 3) = true.
Proof. by vm_compute. Qed.

Example binary64_end_to_end_sums :
  forallb (fun amount =>
    sums_to_one_binary64
      ["success"; "create_fraud"; "confirm_fraud"; "create_retry_exhaust";
       "confirm_retry_exhaust"]
      (end_to_end amount)) PRICE_POINTS = true.
Proof. by vm_compute. Qed.
End Binary64.

(** * Further properties of the model *)

(** ** The weight function on its whole domain *)

Section WeightsAnyArithmetic.
Context `{Arith F}.

Lemma range_to_nat (n : Z) : range n = range (Z.of_nat (Z.to_nat n)).
Proof. unfold range. by rewrite Nat2Z.id. Qed.

(** X1: [create_weights] never raises, for any amount and any integer
    [same_records], negative ones included, in any arithmetic: the divisor is
    never zero, and the mapping returned has exactly the four keys. *)
Theorem create_weights_never_raises (amount : Q) (same_records : Z) :
  exists w : gmap string F,
    create_weights amount same_records = Ok w
    /\ dom w = {[ "immediate"; "deferred"; "retry"; "fraud" ]}
    /\ total (clamped_weights amount same_records) <> 0%Z.
Proof.
  eexists. split; [apply create_weights_Ok|]. split.
  - rewrite !dom_insert_L, dom_singleton_L. set_solver.
  - pose proof (total_positive amount same_records). lia.
Qed.

(** X2: the three surcharges are cumulative and their thresholds exclusive, so
    the raw weights are one of four linear functions of the attempt index [s],
    by the tier of the amount: up to 1000, up to 5000, up to 10000, above. *)
Theorem raw_weights_by_tier (amount : Q) (s : Z) :
  ((amount <= 1000)%Q ->
   raw_weights amount s =
     {| immediate := 65 - 10 * s; deferred := 20 + 5 * s;
        retry := 10 + 5 * s; fraud := 15 * s |})
  /\ ((1000 < amount)%Q -> (amount <= 5000)%Q ->
      raw_weights amount s =
        {| immediate := 65 - 10 * s; deferred := 30 + 10 * s;
           retry := 20 + 10 * s; fraud := 15 * s |})
  /\ ((5000 < amount)%Q -> (amount <= 10000)%Q ->
      raw_weights amount s =
        {| immediate := 50 - 15 * s; deferred := 30 + 10 * s;
           retry := 50 + 15 * s; fraud := 25 * s |})
  /\ ((10000 < amount)%Q ->
      raw_weights amount s =
        {| immediate := 50 - 15 * s; deferred := 30 + 10 * s;
           retry := 50 + 15 * s; fraud := 55 * s |}).
Proof.
  assert (Hle : forall t : Z, (amount <= inject_Z t)%Q -> gt amount t = false).
  { intros t Ht. apply not_true_iff_false. rewrite gt_spec. by apply Qle_not_lt. }
  assert (Hlt : forall t t' : Z,
             (t <= t')%Z -> (amount <= inject_Z t)%Q -> gt amount t' = false).
  { intros t t' Htt Ht. apply Hle. eapply Qle_trans; [exact Ht|].
    by rewrite <- Zle_Qle. }
  assert (Hgt : forall t t' : Z,
             (t' <= t)%Z -> (inject_Z t < amount)%Q -> gt amount t' = true).
  { intros t t' Htt Ht. apply gt_spec. eapply Qle_lt_trans; [|exact Ht].
    by rewrite <- Zle_Qle. }
  unfold raw_weights, tier_10000, tier_5000, tier_1000, base_weights.
  split_and!.
  - intros H1. rewrite (Hlt 1000%Z 1000%Z), (Hlt 1000%Z 5000%Z), (Hlt 1000%Z 10000%Z)
      by (done || lia).
    f_equal; lia.
  - intros H1 H5. rewrite (Hgt 1000%Z 1000%Z), (Hlt 5000%Z 5000%Z), (Hlt 5000%Z 10000%Z)
      by (done || lia).
    simpl. f_equal; lia.
  - intros H5 H10. rewrite (Hgt 5000%Z 1000%Z), (Hgt 5000%Z 5000%Z), (Hlt 10000%Z 10000%Z)
      by (done || lia).
    simpl. f_equal; lia.
  - intros H10. rewrite (Hgt 10000%Z 1000%Z), (Hgt 10000%Z 5000%Z), (Hgt 10000%Z 10000%Z)
      by (done || lia).
    simpl. f_equal; lia.
Qed.

(** X3: a larger amount is never treated more leniently: from attempt 0 on,
    the raw immediate weight does not grow with the amount, and the raw
    deferred, retry and fraud weights do not shrink. *)
Theorem raw_weights_monotone_in_amount (a a' : Q) (s : Z) :
  (a <= a')%Q -> (0 <= s)%Z ->
  (immediate (raw_weights a' s) <= immediate (raw_weights a s))%Z
  /\ (deferred (raw_weights a s) <= deferred (raw_weights a' s))%Z
  /\ (retry (raw_weights a s) <= retry (raw_weights a' s))%Z
  /\ (fraud (raw_weights a s) <= fraud (raw_weights a' s))%Z.
Proof.
  intros Ha Hs.
  assert (Hmono : forall t, gt a t = true -> gt a' t = true).
  { intros t. rewrite !gt_spec. intros Ht. by eapply Qlt_le_trans. }
  unfold raw_weights, tier_10000, tier_5000, tier_1000.
  pose proof (Hmono 1000%Z) as M1. pose proof (Hmono 5000%Z) as M5.
  pose proof (Hmono 10000%Z) as M10.
  destruct (gt a 1000), (gt a 5000), (gt a 10000);
    try rewrite (M1 eq_refl); try rewrite (M5 eq_refl);
    try rewrite (M10 eq_refl);
    destruct (gt a' 1000), (gt a' 5000), (gt a' 10000); simpl; lia.
Qed.

(** X4: [effective_attempt] succeeds exactly on the mappings that have the
    four keys, and otherwise raises [KeyError] for the first missing key in
    the order immediate, deferred, retry, fraud; extra keys are ignored. *)
Theorem effective_attempt_KeyError (weights : gmap string F) :
  (weights !! "immediate" = None ->
   effective_attempt weights = Raise (KeyError "immediate"))
  /\ (is_Some (weights !! "immediate") -> weights !! "deferred" = None ->
      effective_attempt weights = Raise (KeyError "deferred"))
  /\ (is_Some (weights !! "immediate") -> is_Some (weights !! "deferred") ->
      weights !! "retry" = None ->
      effective_attempt weights = Raise (KeyError "retry"))
  /\ (is_Some (weights !! "immediate") -> is_Some (weights !! "deferred") ->
      is_Some (weights !! "retry") -> weights !! "fraud" = None ->
      effective_attempt weights = Raise (KeyError "fraud"))
  /\ ((exists eff, effective_attempt weights = Ok eff) <->
      is_Some (weights !! "immediate") /\ is_Some (weights !! "deferred")
      /\ is_Some (weights !! "retry") /\ is_Some (weights !! "fraud")).
Proof.
  unfold effective_attempt, getitem. split_and!.
  - by intros ->.
  - by intros [i ->] ->.
  - by intros [i ->] [d ->] ->.
  - by intros [i ->] [d ->] [r ->] ->.
  - split.
    + intros [eff Heff].
      destruct (weights !! "immediate"); [|done].
      destruct (weights !! "deferred"); [|done].
      destruct (weights !! "retry"); [|done].
      destruct (weights !! "fraud"); [|done].
      by split_and!.
    + intros ([i ->] & [d ->] & [r ->] & [f ->]). by eexists.
Qed.
End WeightsAnyArithmetic.

Section WeightsCases.
Local Existing Instance exact.

Lemma raw_weights_monotone_in_amount_witness :
  (immediate (raw_weights 7500 2) <= immediate (raw_weights 2000 2))%Z
  /\ (deferred (raw_weights 2000 2) <= deferred (raw_weights 7500 2))%Z
  /\ (retry (raw_weights 2000 2) <= retry (raw_weights 7500 2))%Z
  /\ (fraud (raw_weights 2000 2) <= fraud (raw_weights 7500 2))%Z.
Proof.
  apply (raw_weights_monotone_in_amount 2000 7500 2); [by vm_compute | lia].
Defined.
End WeightsCases.

(** ** The retry loops in any arithmetic *)

Section LoopsAnyArithmetic.
Context `{Arith F}.

(** X5: a [max_retries] of zero or less makes no attempt at all: [range] is
    empty and both aggregators return {success: 0.0, fraud: 0.0,
    retry_exhausted: 1.0}, whatever the amount. *)
Theorem nonpositive_max_retries (amount : Q) (max_retries : Z) :
  (max_retries <= 0)%Z ->
  range max_retries = []
  /\ final_outcome_create amount max_retries =
       Ok {[ "success" := lit 0; "fraud" := lit 0; "retry_exhausted" := lit 1 ]}
  /\ final_outcome_confirm max_retries =
       Ok {[ "success" := lit 0; "fraud" := lit 0; "retry_exhausted" := lit 1 ]}.
Proof.
  intros Hm.
  assert (Hr : range max_retries = []).
  { unfold range. by replace (Z.to_nat max_retries) with 0%nat by lia. }
  split; [done|]. unfold final_outcome_create, final_outcome_confirm.
  rewrite Hr, effective_attempt_CONFIRM_WEIGHTS. done.
Qed.

Lemma attempt_effective_Ok amount s :
  let v := clamped_weights amount s in
  let i := truediv (immediate v) (total v) in
  let d := truediv (deferred v) (total v) in
  let r := truediv (retry v) (total v) in
  let f := truediv (fraud v) (total v) in
  attempt_effective amount s =
    Ok {[ "success" := (i + d * DEFERRED_SUCCESS)%A;
          "retry" := (r + d * DEFERRED_RETRY)%A;
          "fraud" := (f + d * DEFERRED_FRAUD)%A ]}.
Proof.
  intros v i d r f. unfold attempt_effective. rewrite create_weights_Ok.
  fold v i d r f. change (Ok ?m ≫= ?k) with (k m). cbv beta.
  by apply effective_attempt_Ok; simplify_map_eq.
Qed.

Lemma create_loop_retry_product amount (n : nat) :
  exists (st : acc) (rs : list F),
    for_each (create_body amount) (range (Z.of_nat n)) acc_init = Ok st
    /\ Forall2 (fun i r => exists eff, attempt_effective amount i = Ok eff
                                       /\ eff !! "retry" = Some r)
         (range (Z.of_nat n)) rs
    /\ p_still_retrying st = foldl mul (lit 1) rs.
Proof.
  induction n as [|n (st & rs & Hloop & Hrs & Hp)].
  - exists acc_init, []. split_and!; [done | constructor | done].
  - rewrite range_succ, for_each_snoc, Hloop.
    change (Ok ?m ≫= ?k) with (k m). cbv beta. rewrite create_body_Ok.
    eexists _, (rs ++ [_]). split; [done|]. split.
    + apply Forall2_app; [exact Hrs|]. constructor; [|constructor].
      eexists. split; [apply attempt_effective_Ok|]. by simplify_map_eq.
    + simpl. by rewrite foldl_app, <- Hp.
Qed.

(** X6: the mass reported as retry_exhausted is the product of the retry
    probabilities of the attempts made: with [r_i] the retry value of the
    effective distribution of attempt [i], [final_outcome_create] returns
    [((1.0 * r_0) * r_1) * ...] over [i] in [range(max_retries)], in this
    order of multiplication, in any arithmetic. *)
Theorem retry_exhausted_is_product (amount : Q) (max_retries : Z) :
  exists (c : gmap string F) (rs : list F),
    final_outcome_create amount max_retries = Ok c
    /\ Forall2 (fun i r => exists eff, attempt_effective amount i = Ok eff
                                       /\ eff !! "retry" = Some r)
         (range max_retries) rs
    /\ c !! "retry_exhausted" = Some (foldl mul (lit 1) rs).
Proof.
  destruct (create_loop_retry_product amount (Z.to_nat max_retries))
    as (st & rs & Hloop & Hrs & Hp).
  rewrite <- range_to_nat in Hloop, Hrs.
  exists (outcome st), rs. split_and!; [|done|].
  - unfold final_outcome_create. by rewrite Hloop.
  - unfold outcome. rewrite <- Hp. by simplify_map_eq.
Qed.
End LoopsAnyArithmetic.

Section LoopsCases.
Local Existing Instance exact.

Lemma nonpositive_max_retries_witness :
  range (-2) = []
  /\ final_outcome_create 7500 (-2) =
       Ok {[ "success" := lit 0; "fraud" := lit 0; "retry_exhausted" := lit 1 ]}
  /\ final_outcome_confirm (-2) =
       Ok {[ "success" := lit 0; "fraud" := lit 0; "retry_exhausted" := lit 1 ]}.
Proof. apply (nonpositive_max_retries 7500 (-2)). lia. Defined.
End LoopsCases.

(** ** The retry loops in exact arithmetic *)

Section LoopsExact.
Local Existing Instance exact.
Local Open Scope Q_scope.

(** One attempt with positive success, retry and fraud probabilities keeps
    the invariant, moves mass to success and to fraud, and takes mass out of
    retry. *)
Lemma accumulate_inv (st : acc) (es er ef : Q) :
  0 < es -> 0 < er -> 0 < ef -> es + er + ef == 1 -> acc_inv st ->
  let st' := {| p_success := p_success st + p_still_retrying st * es;
                p_fraud := p_fraud st + p_still_retrying st * ef;
                p_still_retrying := p_still_retrying st * er |} in
  acc_inv st' /\ p_success st < p_success st' /\ p_fraud st < p_fraud st'
  /\ p_still_retrying st' < p_still_retrying st.
Proof.
  intros Hs Hr Hf He (Hps & Hpf & Hp & Hm). unfold acc_inv, mass in *.
  destruct st as [ps pf p]; simpl in *.
  assert (0 < p * es) by nra. assert (0 < p * ef) by nra.
  assert (0 < p * er) by nra.
  assert (p * es + p * er + p * ef == p) by nra.
  split_and!; lra.
Qed.

Lemma acc_inv_init : acc_inv acc_init.
Proof. unfold acc_inv, mass. simpl. split_and!; by vm_compute. Qed.

(** From attempt 0 on, every effective probability of a create attempt is
    positive: the deferred weight is, and part of it resolves each way. *)
Lemma attempt_positive amount s :
  (0 <= s)%Z ->
  let v := clamped_weights amount s in
  let i := truediv (immediate v) (total v) in
  let d := truediv (deferred v) (total v) in
  let r := truediv (retry v) (total v) in
  let f := truediv (fraud v) (total v) in
  0 < i + d * DEFERRED_SUCCESS /\ 0 < r + d * DEFERRED_RETRY
  /\ 0 < f + d * DEFERRED_FRAUD
  /\ (i + d * DEFERRED_SUCCESS) + (r + d * DEFERRED_RETRY)
     + (f + d * DEFERRED_FRAUD) == 1.
Proof.
  intros Hs v i d r f.
  pose proof (total_positive amount s) as Ht.
  pose proof (clamp_nonneg (raw_weights amount s)) as (Hi & _ & Hr & Hf).
  pose proof (deferred_at_least_20 amount s Hs) as Hd.
  fold (clamped_weights amount s) in Hi, Hr, Hf. fold v in Ht, Hi, Hr, Hf, Hd.
  assert (0 <= i) by by apply truediv_nonneg.
  assert (0 <= r) by by apply truediv_nonneg.
  assert (0 <= f) by by apply truediv_nonneg.
  assert (0 < d).
  { subst d. change (0 < inject_Z (deferred v) / inject_Z (total v)).
    apply Qlt_shift_div_l.
    - change 0 with (inject_Z 0). by rewrite <- Zlt_Qlt.
    - rewrite Qmult_0_l. change 0 with (inject_Z 0). rewrite <- Zlt_Qlt. lia. }
  assert (Hsum : i + d + r + f == 1) by by apply truediv_total.
  clearbody i d r f.
  unfold DEFERRED_SUCCESS, DEFERRED_RETRY, DEFERRED_FRAUD. simpl.
  split_and!; lra.
Qed.

Lemma create_body_inv amount (st : acc) s :
  (0 <= s)%Z -> acc_inv st ->
  exists st',
    create_body amount st s = Ok st' /\ acc_inv st'
    /\ p_success st < p_success st' /\ p_fraud st < p_fraud st'
    /\ p_still_retrying st' < p_still_retrying st.
Proof.
  intros Hs Hst. rewrite create_body_Ok. eexists. split; [done|].
  destruct (attempt_positive amount s Hs) as (Hes & Her & Hef & Hsum).
  by apply accumulate_inv.
Qed.

Lemma create_loop_inv amount (max_retries : Z) :
  exists st : acc,
    for_each (create_body amount) (range max_retries) acc_init = Ok st
    /\ acc_inv st.
Proof.
  apply (for_each_invariant acc_inv (fun i => (0 <= i)%Z));
    [| apply range_nonneg | apply acc_inv_init].
  intros st s Hst Hs.
  destruct (create_body_inv amount st s Hs Hst) as (st' & Hb & Hinv & _).
  by exists st'.
Qed.





(** X9: a single attempt is the effective distribution of attempt 0: with
    [max_retries = 1], success, fraud and retry_exhausted are the success,
    fraud and retry values of [effective_attempt(create_weights(amount, 0))]. *)
Theorem single_attempt (amount : Q) :
  exists es er ef c_success c_fraud c_exhausted : Q,
    attempt_effective amount 0 =
      Ok {[ "success" := es; "retry" := er; "fraud" := ef ]}
    /\ final_outcome_create amount 1 =
         Ok {[ "success" := c_success;
               "fraud" := c_fraud;
               "retry_exhausted" := c_exhausted ]}
    /\ c_success == es /\ c_fraud == ef /\ c_exhausted == er.
Proof.
  do 6 eexists. split; [apply attempt_effective_Ok|]. split.
  - unfold final_outcome_create.
    change (range 1) with [0%Z]. simpl. rewrite create_body_Ok. done.
  - simpl. split_and!; ring.
Qed.

(** The effective distribution of a confirm attempt: 0.59, 0.357, 0.053. *)
Lemma confirm_effective_values :
  0.35 + 0.30 * DEFERRED_SUCCESS == 0.59
  /\ 0.30 + 0.30 * DEFERRED_RETRY == 0.357
  /\ 0.05 + 0.30 * DEFERRED_FRAUD == 0.053.
Proof. split_and!; reflexivity. Qed.

Lemma confirm_loop_inv (eff : gmap string Q) (es er ef : Q) (xs : list Z) :
  eff !! "success" = Some es -> eff !! "retry" = Some er ->
  eff !! "fraud" = Some ef ->
  0 < es -> 0 < er -> 0 < ef -> es + er + ef == 1 ->
  exists st, for_each (confirm_body eff) xs acc_init = Ok st /\ acc_inv st.
Proof.
  intros Hs Hr Hf Hes Her Hef Hsum.
  apply (for_each_invariant acc_inv (fun _ => True));
    [| by apply Forall_true | apply acc_inv_init].
  intros st x Hst _. unfold confirm_body.
  rewrite (accumulate_Ok _ _ _ _ _ Hs Hr Hf). eexists; split; [done|].
  by apply accumulate_inv.
Qed.


Lemma Qpower_succ (q : Q) (n : nat) :
  ~ q == 0 -> q ^ Z.of_nat (S n) == q ^ Z.of_nat n * q.
Proof.
  intros Hq. rewrite Nat2Z.inj_succ, <- Z.add_1_r.
  by rewrite Qpower_plus.
Qed.

(** The confirm loop sums a geometric series. *)
Lemma confirm_loop_closed_form (eff : gmap string Q) (es er ef : Q) (n : nat) :
  eff !! "success" = Some es -> eff !! "retry" = Some er ->
  eff !! "fraud" = Some ef -> ~ er == 0 ->
  exists st : acc,
    for_each (confirm_body eff) (range (Z.of_nat n)) acc_init = Ok st
    /\ p_still_retrying st == er ^ Z.of_nat n
    /\ p_success st * (1 - er) == es * (1 - er ^ Z.of_nat n)
    /\ p_fraud st * (1 - er) == ef * (1 - er ^ Z.of_nat n).
Proof.
  intros Hs Hr Hf Hne.
  induction n as [|n (st & Hloop & Hp & Hps & Hpf)].
  - exists acc_init. split; [done|]. simpl. split_and!; ring.
  - rewrite range_succ, for_each_snoc, Hloop.
    change (Ok ?m ≫= ?k) with (k m). cbv beta. unfold confirm_body.
    rewrite (accumulate_Ok _ _ _ _ _ Hs Hr Hf). eexists; split; [done|].
    simpl. rewrite (Qpower_succ er n Hne). split_and!.
    + by rewrite Hp.
    + transitivity (p_success st * (1 - er)
                    + p_still_retrying st * es * (1 - er)); [ring|].
      rewrite Hps, Hp. ring.
    + transitivity (p_fraud st * (1 - er)
                    + p_still_retrying st * ef * (1 - er)); [ring|].
      rewrite Hpf, Hp. ring.
Qed.

(** X11: the confirm loop has a closed form.  With the effective confirm
    distribution success 0.59, retry 0.357, fraud 0.053, after [n] attempts
    retry_exhausted is [0.357^n], and success and fraud are the geometric sums
    [0.59 (1 - 0.357^n) / (1 - 0.357)] and [0.053 (1 - 0.357^n) / (1 - 0.357)]. *)
Theorem final_outcome_confirm_closed_form (n : nat) :
  exists k_success k_fraud k_exhausted : Q,
    final_outcome_confirm (Z.of_nat n) =
      Ok {[ "success" := k_success;
            "fraud" := k_fraud;
            "retry_exhausted" := k_exhausted ]}
    /\ k_exhausted == 0.357 ^ Z.of_nat n
    /\ k_success == 0.59 * (1 - 0.357 ^ Z.of_nat n) / (1 - 0.357)
    /\ k_fraud == 0.053 * (1 - 0.357 ^ Z.of_nat n) / (1 - 0.357).
Proof.
  destruct confirm_effective_values as (Hes & Her & Hef).
  unfold final_outcome_confirm. rewrite effective_attempt_CONFIRM_WEIGHTS.
  change (Ok ?m ≫= ?g) with (g m). cbv beta.
  edestruct (confirm_loop_closed_form) with (n := n)
    as (k & -> & Hp & Hps & Hpf); [by simplify_map_eq ..| |].
  { by vm_compute. }
  exists (p_success k), (p_fraud k), (p_still_retrying k).
  split; [done|]. simpl in Hp, Hps, Hpf.
  rewrite Her in Hp, Hps, Hpf. rewrite Hes in Hps. rewrite Hef in Hpf.
  split_and!; [done | |].
  - rewrite <- Hps. field.
  - rewrite <- Hpf. field.
Qed.

(** ** Bounds on the weights and on the end-to-end outcome *)

(** A threshold passed, the lower ones are passed too. *)
Lemma gt_threshold_mono (amount : Q) (t t' : Z) :
  (t' <= t)%Z -> gt amount t = true -> gt amount t' = true.
Proof.
  intros Htt. rewrite !gt_spec. intros Ht.
  eapply Qle_lt_trans; [|exact Ht]. by rewrite <- Zle_Qle.
Qed.



(** X13: each of the five values of [end_to_end] is a probability, and the
    end-to-end success is below the success of the create phase alone. *)
Theorem end_to_end_bounds (amount : Q) :
  exists (c : acc) (success create_fraud confirm_fraud create_exhaust
            confirm_exhaust : Q),
    final_outcome_create amount 3 = Ok (outcome c)
    /\ end_to_end amount =
         Ok {[ "success" := success;
               "create_fraud" := create_fraud;
               "confirm_fraud" := confirm_fraud;
               "create_retry_exhaust" := create_exhaust;
               "confirm_retry_exhaust" := confirm_exhaust ]}
    /\ 0 <= success <= 1 /\ 0 <= create_fraud <= 1
    /\ 0 <= confirm_fraud <= 1 /\ 0 <= create_exhaust <= 1
    /\ 0 <= confirm_exhaust <= 1
    /\ success < p_success c.
Proof.
  destruct (create_loop_inv amount 2) as (c2 & Hloop2 & Hc2).
  destruct (create_body_inv amount c2 2 ltac:(lia) Hc2)
    as (c & Hb & Hc & Hs2 & _).
  assert (Hcreate : final_outcome_create amount 3 = Ok (outcome c)).
  { unfold final_outcome_create.
    change (range 3) with (range 2 ++ [2%Z]).
    by rewrite for_each_snoc, Hloop2; simpl; rewrite Hb. }
  assert (Hpos : 0 < p_success c).
  { destruct Hc2 as (? & _). lra. }
  assert (Hk : exists k : acc,
             final_outcome_confirm 3 = Ok (outcome k) /\ acc_inv k).
  { unfold final_outcome_confirm. rewrite effective_attempt_CONFIRM_WEIGHTS.
    change (Ok ?m ≫= ?g) with (g m). cbv beta.
    edestruct confirm_loop_inv as (k & -> & Hinv);
      [by simplify_map_eq .. | by vm_compute | by vm_compute | by vm_compute
      | reflexivity |].
    by exists k. }
  destruct Hk as (k & Hconfirm & Hk).
  pose proof (end_to_end_Ok amount c k Hcreate Hconfirm) as He.
  exists c. do 5 eexists. split; [exact Hcreate|]. split; [exact He|].
  unfold acc_inv, mass in Hc, Hk.
  destruct c as [cs cf cx], k as [ks kf kx]; simpl in *.
  destruct Hc as (Hcs & Hcf & Hcx & Hcm), Hk as (Hks & Hkf & Hkx & Hkm).
  assert (0 <= cs * ks) by nra. assert (0 <= cs * kf) by nra.
  assert (0 <= cs * kx) by nra.
  assert (cs * ks + cs * kf + cs * kx == cs) by nra.
  split_and!; nra.
Qed.
End LoopsExact.

(** ** The aggregators against the amount and the number of attempts *)

Section Aggregators.
Context `{Arith F}.

(** X14: [final_outcome_confirm] computes the effective distribution once,
    before its loop; this gives what the aggregation of the spec gives when it
    recomputes it from the fixed weights at every attempt, in any
    arithmetic. *)
Theorem final_outcome_confirm_aggregate (max_retries : Z) :
  final_outcome_confirm max_retries =
  (st ← aggregate (fun _ => Ok CONFIRM_WEIGHTS) (Z.to_nat max_retries);
   mret (outcome st)).
Proof.
  rewrite <- confirm_loop_aggregate, <- range_to_nat.
  unfold final_outcome_confirm.
  by destruct (effective_attempt CONFIRM_WEIGHTS).
Qed.

Lemma tier_amount_same_side (amount : Q) :
  same_side 1000 amount (tier_amount amount)
  /\ same_side 5000 amount (tier_amount amount)
  /\ same_side 10000 amount (tier_amount amount).
Proof.
  pose proof (gt_threshold_mono amount 10000 5000 ltac:(lia)) as H10.
  pose proof (gt_threshold_mono amount 5000 1000 ltac:(lia)) as H5.
  unfold tier_amount, same_side. rewrite <- !gt_spec.
  destruct (gt amount 10000) eqn:E10.
  { rewrite (H5 (H10 eq_refl)), (H10 eq_refl). by vm_compute. }
  destruct (gt amount 5000) eqn:E5.
  { rewrite (H5 eq_refl). by vm_compute. }
  destruct (gt amount 1000) eqn:E1; by vm_compute.
Qed.

Lemma end_to_end_tier_amount (amount : Q) :
  end_to_end amount = end_to_end (tier_amount amount).
Proof.
  destruct (tier_amount_same_side amount) as (H1 & H5 & H10).
  by apply end_to_end_same_side.
Qed.
End Aggregators.

Section AggregatorsExact.
Local Existing Instance exact.
Local Open Scope Q_scope.

(** X15: a larger amount never has a better chance to go through: the
    end-to-end success probability of [a'] is at most that of [a] whenever
    [a <= a']. *)
Theorem end_to_end_success_antitone (a a' : Q) :
  a <= a' ->
  exists v v' : Q,
    end_to_end_success a = Ok v /\ end_to_end_success a' = Ok v'
    /\ v' <= v.
Proof.
  intros Ha. unfold end_to_end_success.
  rewrite (end_to_end_tier_amount a), (end_to_end_tier_amount a').
  assert (Hmono : forall t, gt a t = true -> gt a' t = true).
  { intros t. rewrite !gt_spec. intros Ht. by eapply Qlt_le_trans. }
  pose proof (Hmono 1000%Z) as M1. pose proof (Hmono 5000%Z) as M5.
  pose proof (Hmono 10000%Z) as M10.
  unfold tier_amount.
  destruct (gt a 10000), (gt a 5000), (gt a 1000);
    try specialize (M10 eq_refl); try specialize (M5 eq_refl);
    try specialize (M1 eq_refl);
    destruct (gt a' 10000), (gt a' 5000), (gt a' 1000); try done;
    (do 2 eexists; split_and!;
     [vm_compute; reflexivity | vm_compute; reflexivity | by vm_compute]).
Qed.

Lemma end_to_end_success_antitone_witness :
  exists v v' : Q,
    end_to_end_success 500 = Ok v /\ end_to_end_success 7500 = Ok v'
    /\ v' <= v.
Proof. apply (end_to_end_success_antitone 500 7500). by vm_compute. Defined.


End AggregatorsExact.
